(** * OEIS A300793: the proven row recursion and the conjectured recurrence

    A shallow embedding of [oeis_A300793.py].  Python integers are
    unbounded, so they are modelled as [Z]; Python lists of integers are
    [list Z]; [list.append] is [l ++ [x]].  A subscript that is out of
    range raises [IndexError], a failed [assert] raises [AssertionError],
    and the conversion of an integer of more than 4300 digits to a string
    raises [ValueError]: all three are kept, as values of an error monad. *)

From Stdlib Require Import ZArith List Lia Bool String DecimalString.
Import ListNotations.
Local Open Scope Z_scope.

(** ** The fragment of Python the program uses *)

Module Py.

Inductive exn : Type :=
| IndexError
| AssertionError
| ValueError.

Inductive result (A : Type) : Type :=
| Ok (a : A)
| Raise (e : exn).

Arguments Ok {A} a.
Arguments Raise {A} e.

Definition bind {A B : Type} (m : result A) (k : A -> result B) : result B :=
  match m with
  | Ok a => k a
  | Raise e => Raise e
  end.

(** [len(l)] *)
Definition len (l : list Z) : Z := Z.of_nat (List.length l).

(** [l[i]]: a negative subscript counts from the end of the list, and a
    subscript outside the list raises [IndexError]. *)
Definition index (l : list Z) (i : Z) : result Z :=
  let k := if i <? 0 then i + len l else i in
  if (k <? 0) || (len l <=? k) then Raise IndexError
  else match nth_error l (Z.to_nat k) with
       | Some x => Ok x
       | None => Raise IndexError
       end.

(** [range(lo, hi)]: [lo, lo+1, ..., hi-1], empty when [hi <= lo]. *)
Definition range (lo hi : Z) : list Z :=
  map (fun k => lo + Z.of_nat k) (seq 0 (Z.to_nat (hi - lo))).

(** [for x in xs: s = body(x, s)], stopping at the first exception. *)
Fixpoint for_in {S : Type} (xs : list Z) (body : Z -> S -> result S)
         (s : S) : result S :=
  match xs with
  | [] => Ok s
  | x :: xs' => bind (body x s) (for_in xs' body)
  end.

(** [sum(l)]: starts from 0 and adds the elements from left to right. *)
Definition sum (l : list Z) : Z := fold_left Z.add l 0.

(** The interpreter converts no integer of more than this many decimal
    digits to a string ([sys.int_info.default_max_str_digits]). *)
Definition int_max_str_digits : Z := 4300.

(** [10 ** int_max_str_digits], the least magnitude with too many digits. *)
Definition int_str_bound : Z := Eval vm_compute in 10 ^ int_max_str_digits.

(** The integer has at most [int_max_str_digits] digits, its sign apart. *)
Definition printable (z : Z) : bool := Z.abs z <? int_str_bound.

(** The decimal digits of an integer, after its sign if it is negative. *)
Definition decimal (z : Z) : string := NilZero.string_of_int (Z.to_int z).

(** [str(z)] for an integer, which is also how [format] renders it:
    [ValueError] when it has too many digits. *)
Definition str (z : Z) : result string :=
  if printable z then Ok (decimal z) else Raise ValueError.

End Py.

Import Py.

Declare Scope py_scope.
Delimit Scope py_scope with py.
Notation "x <- m ;; k" := (bind m (fun x => k))
  (at level 61, m at next level, right associativity) : py_scope.
Local Open Scope py_scope.

(** ** The proven recursion *)

(** [get_next_row_b(current_row)] *)
Definition get_next_row_b (current_row : list Z) : result (list Z) :=
  let n := len current_row in
  let new_row := [] in
  c0 <- index current_row 0 ;;
  let new_row := new_row ++ [- c0 * n] in
  new_row <- for_in (range 1 n)
               (fun j new_row =>
                  cj <- index current_row j ;;
                  cj1 <- index current_row (j - 1) ;;
                  Ok (new_row ++ [cj * (2 * j - n) + cj1 * (2 * j - 3 * n - 1)]))
               new_row ;;
  cl <- index current_row (n - 1) ;;
  Ok (new_row ++ [cl * (2 * n - 3 * n - 1)]).

(** The body of the loop of [get_a_until], on the loop state [(b, a)].
    [n] ranges over [range(1, num + 1)], so [(-1)**n] is an integer power. *)
Definition get_a_until_body (n : Z) (st : list Z * list Z)
  : result (list Z * list Z) :=
  let '(b, a) := st in
  let sign := (-1) ^ n in
  let a := a ++ [sign * sum b] in
  b <- get_next_row_b b ;;
  Ok (b, a).

(** The loop of [get_a_until] over a given list of values of [n]. *)
Definition get_a_until_loop (ns : list Z) (st : list Z * list Z)
  : result (list Z * list Z) :=
  for_in ns get_a_until_body st.

(** [get_a_until(num)] *)
Definition get_a_until (num : Z) : result (list Z) :=
  let b := [-1] in
  let a := [] in
  st <- get_a_until_loop (range 1 (num + 1)) (b, a) ;;
  Ok (snd st).

(** ** The conjectured recurrence *)

(** The body of the loop of [get_unproven_a_until]. *)
Definition get_unproven_a_until_body (n : Z) (a : list Z) : result (list Z) :=
  a3 <- index a (n - 3) ;;
  a2 <- index a (n - 2) ;;
  a1 <- index a (n - 1) ;;
  Ok (a ++ [4 * (n - 1) ^ 2 * (n - 2) * a3
            - 2 * (3 * n - 2) * (n - 1) * a2
            + (4 * n - 1) * a1]).

(** [get_unproven_a_until(num)] *)
Definition get_unproven_a_until (num : Z) : result (list Z) :=
  if num <=? 0 then Ok []
  else if num =? 1 then Ok [1]
  else if num =? 2 then Ok [1; 3]
  else
    let a := [1; 3; 13] in
    for_in (range 3 num) get_unproven_a_until_body a.


(** ** The command-line driver *)

(** The driver prints while it checks, so its effects are the lines written
    to standard output so far together with a [result]. *)
Module IO.

Definition io (A : Type) : Type := list string -> list string * result A.

Definition ret {A : Type} (a : A) : io A := fun out => (out, Ok a).

Definition bind {A B : Type} (m : io A) (k : A -> io B) : io B :=
  fun out =>
    match m out with
    | (out', Ok a) => k a out'
    | (out', Raise e) => (out', Raise e)
    end.

Definition lift {A : Type} (r : result A) : io A := fun out => (out, r).

(** [print(s)] *)
Definition print (s : string) : io unit := fun out => (out ++ [s], Ok tt).

(** [assert b] *)
Definition assert (b : bool) : io unit :=
  lift (if b then Ok tt else Raise AssertionError).

Fixpoint for_in (xs : list Z) (body : Z -> io unit) : io unit :=
  match xs with
  | [] => ret tt
  | x :: xs' => bind (body x) (fun _ => for_in xs' body)
  end.

End IO.

Notation "x <~ m ;; k" := (IO.bind m (fun x => k))
  (at level 61, m at next level, right associativity) : py_scope.

(** ["a({0})={1}".format(i, v)] *)
Definition format_entry (i v : Z) : result string :=
  si <- str i ;;
  sv <- str v ;;
  Ok ("a(" ++ si ++ ")=" ++ sv)%string.

(** The body of the last loop of the driver. *)
Definition main_body (a a_unproven : list Z) (i : Z) : IO.io unit :=
  ai <~ IO.lift (index a i) ;;
  line <~ IO.lift (format_entry (i + 1) ai) ;;
  _ <~ IO.print line ;;
  ai' <~ IO.lift (index a i) ;;
  ui <~ IO.lift (index a_unproven i) ;;
  IO.assert (ai' =? ui).

(** The driver from the first [assert] on: the comparison of the two lists. *)
Definition main_check (a a_unproven : list Z) : IO.io unit :=
  _ <~ IO.assert (len a =? len a_unproven) ;;
  IO.for_in (range 0 (len a)) (main_body a a_unproven).

(** The [__main__] block, from the parsed argument [num] on. *)
Definition main (num : Z) : IO.io unit :=
  a <~ IO.lift (get_a_until num) ;;
  a_unproven <~ IO.lift (get_unproven_a_until num) ;;
  main_check a a_unproven.

(** The outcome of a run of the driver that starts with nothing printed. *)
Definition main_outcome (num : Z) : result unit := snd (main num []).

(** ** The rows by generation, as the specification words them

    The row of generation 1 is [[-1]], and the row of each further
    generation is [get_next_row_b] of the row before it. *)
Fixpoint advance_times (k : nat) (row : list Z) : result (list Z) :=
  match k with
  | O => Ok row
  | S k' => row' <- advance_times k' row ;; get_next_row_b row'
  end.

Definition row_at_generation (n : Z) : result (list Z) :=
  advance_times (Z.to_nat (n - 1)) [-1].

(** An element of a list by position, 0 where there is none: used in the
    proofs to name the value a subscript that is in range returns. *)
Definition item (l : list Z) (i : Z) : Z := nth (Z.to_nat i) l 0.

(** The entry that the loop of [get_next_row_b] appends for [j], written
    with [item]. *)
Definition next_row_entry (current_row : list Z) (j : Z) : Z :=
  let n := len current_row in
  item current_row j * (2 * j - n) + item current_row (j - 1) * (2 * j - 3 * n - 1).

(** The row [get_next_row_b] builds, in closed form. *)
Definition next_row_closed (current_row : list Z) : list Z :=
  let n := len current_row in
  ([- item current_row 0 * n] ++ map (next_row_entry current_row) (range 1 n))
    ++ [item current_row (n - 1) * (2 * n - 3 * n - 1)].


Fixpoint list_eqb (l r : list Z) : bool :=
  match l, r with
  | [], [] => true
  | x :: l', y :: r' => (x =? y) && list_eqb l' r'
  | _, _ => false
  end.

(** For one [num]: both engines return, the lists are equal and of length
    [num], and the driver ends without an exception. *)
Definition engines_agree (num : Z) : bool :=
  match get_a_until num, get_unproven_a_until num, main_outcome num with
  | Ok a, Ok a_unproven, Ok _ => (len a =? num) && list_eqb a a_unproven
  | _, _, _ => false
  end.

(** A subscript that is within the list without counting from its end. *)
Definition in_bounds (l : list Z) (i : Z) : Prop := 0 <= i < len l.

(** The line the driver prints for position [i] of the list [a], when it
    can be formatted. *)
Definition entry_line (a : list Z) (i : Z) : string :=
  ("a(" ++ decimal (i + 1) ++ ")=" ++ decimal (item a i))%string.

(** Both numbers of the line for position [i] have few enough digits. *)
Definition line_printable (a : list Z) (i : Z) : bool :=
  printable (i + 1) && printable (item a i).

(** The lines for the positions before [k] can all be formatted. *)
Definition lines_printable (a : list Z) (k : Z) : bool :=
  forallb (line_printable a) (range 0 k).

(** The comparison loop of the driver in closed form, for positions that
    are within both lists. *)
Fixpoint compare_at (a a_unproven : list Z) (positions : list Z)
         (out : list string) : list string * result unit :=
  match positions with
  | [] => (out, Ok tt)
  | i :: rest =>
      if line_printable a i then
        if item a i =? item a_unproven i
        then compare_at a a_unproven rest (out ++ [entry_line a i])
        else (out ++ [entry_line a i], Raise AssertionError)
      else (out, Raise ValueError)
  end.

(** The lines the driver prints for the positions before [k]. *)
Definition printed_lines (a : list Z) (k : Z) : list string :=
  map (entry_line a) (range 0 k).

(** An element of a row by position, 0 outside the row. *)
Definition padded (l : list Z) (i : Z) : Z :=
  if (0 <=? i) && (i <? len l) then item l i else 0.

(** A row with every entry multiplied by [c]. *)
Definition scale_row (c : Z) (row : list Z) : list Z := map (Z.mul c) row.

(** ** Lists, subscripts and ranges *)

Lemma len_nonneg (l : list Z) : 0 <= len l.
Proof. unfold len. lia. Qed.

Lemma len_app (l r : list Z) : len (l ++ r) = len l + len r.
Proof. unfold len. rewrite length_app. lia. Qed.

Lemma len_map (f : Z -> Z) (l : list Z) : len (map f l) = len l.
Proof. unfold len. rewrite length_map. reflexivity. Qed.

Lemma len_single (x : Z) : len [x] = 1.
Proof. reflexivity. Qed.

Lemma len_nil_iff (l : list Z) : len l = 0 <-> l = [].
Proof.
  destruct l as [|x l]; unfold len; simpl; split; intros H;
    try reflexivity; try discriminate; lia.
Qed.

Lemma index_in_range (l : list Z) (i : Z) :
  0 <= i < len l -> index l i = Ok (item l i).
Proof.
  intros Hi. unfold index, item.
  assert (E1 : (i <? 0) = false) by (apply Z.ltb_ge; lia).
  rewrite E1. rewrite E1.
  assert (E2 : (len l <=? i) = false) by (apply Z.leb_gt; lia).
  rewrite E2. simpl.
  destruct (nth_error l (Z.to_nat i)) as [x|] eqn:E.
  - f_equal. symmetry. apply nth_error_nth. exact E.
  - apply nth_error_None in E. unfold len in Hi. lia.
Qed.


Lemma item_app_l (l r : list Z) (i : Z) :
  0 <= i < len l -> item (l ++ r) i = item l i.
Proof.
  intros Hi. unfold item. apply app_nth1. unfold len in Hi. lia.
Qed.

Lemma item_app_r (l r : list Z) (i : Z) :
  len l <= i -> item (l ++ r) i = item r (i - len l).
Proof.
  intros Hi. unfold item. pose proof (len_nonneg l) as Hl. unfold len in *.
  rewrite app_nth2 by lia. f_equal. lia.
Qed.

Lemma item_map (f : Z -> Z) (l : list Z) (i : Z) :
  0 <= i < len l -> item (map f l) i = f (item l i).
Proof.
  intros Hi. unfold item.
  rewrite nth_indep with (d' := f 0)
    by (rewrite length_map; unfold len in Hi; lia).
  apply map_nth.
Qed.

Lemma item_last (l : list Z) (x : Z) : item (l ++ [x]) (len l) = x.
Proof.
  rewrite item_app_r by lia. rewrite Z.sub_diag. reflexivity.
Qed.

Lemma range_nil (lo hi : Z) : hi <= lo -> range lo hi = [].
Proof.
  intros H. unfold range. replace (Z.to_nat (hi - lo)) with 0%nat by lia.
  reflexivity.
Qed.

Lemma range_snoc (lo hi : Z) :
  lo <= hi -> range lo (hi + 1) = range lo hi ++ [hi].
Proof.
  intros H. unfold range.
  replace (Z.to_nat (hi + 1 - lo)) with (S (Z.to_nat (hi - lo))) by lia.
  rewrite seq_S, map_app. simpl. do 2 f_equal. lia.
Qed.

Lemma range_cons (lo hi : Z) :
  lo < hi -> range lo hi = lo :: range (lo + 1) hi.
Proof.
  intros H. unfold range.
  replace (Z.to_nat (hi - lo)) with (S (Z.to_nat (hi - (lo + 1)))) by lia.
  simpl. f_equal; [lia|].
  rewrite <- seq_shift, map_map. apply map_ext. intros k. lia.
Qed.

Lemma map_seq_offset {A : Type} (f : nat -> A) (n a b : nat) :
  map f (seq (a + n) b) = map (fun k => f (k + n)%nat) (seq a b).
Proof.
  revert a. induction b as [|b IH]; intros a; simpl; [reflexivity|].
  f_equal. apply (IH (S a)).
Qed.

Lemma range_app (lo mid hi : Z) :
  lo <= mid <= hi -> range lo hi = range lo mid ++ range mid hi.
Proof.
  intros H. unfold range.
  replace (Z.to_nat (hi - lo))
    with (Z.to_nat (mid - lo) + Z.to_nat (hi - mid))%nat by lia.
  rewrite seq_app, map_app. f_equal.
  rewrite (map_seq_offset _ (Z.to_nat (mid - lo)) 0).
  apply map_ext. intros k. lia.
Qed.

Lemma in_range (lo hi x : Z) : In x (range lo hi) <-> lo <= x < hi.
Proof.
  unfold range. rewrite in_map_iff. split.
  - intros [k [Hk Hin]]. apply in_seq in Hin. lia.
  - intros H. exists (Z.to_nat (x - lo)). split; [lia|]. apply in_seq. lia.
Qed.

Lemma len_range (lo hi : Z) : lo <= hi -> len (range lo hi) = hi - lo.
Proof.
  intros H. unfold len, range. rewrite length_map, length_seq. lia.
Qed.

Lemma item_range (lo hi k : Z) :
  0 <= k < hi - lo -> item (range lo hi) k = lo + k.
Proof.
  intros H. unfold item, range.
  rewrite nth_indep with (d' := lo + Z.of_nat 0)
    by (rewrite length_map, length_seq; lia).
  change (lo + Z.of_nat 0) with ((fun k => lo + Z.of_nat k) 0%nat).
  rewrite map_nth, seq_nth by lia. lia.
Qed.

Lemma for_in_app {S : Type} (xs ys : list Z) (body : Z -> S -> result S) (s : S) :
  for_in (xs ++ ys) body s = bind (for_in xs body s) (for_in ys body).
Proof.
  revert s. induction xs as [|x xs IH]; intros s; simpl; [reflexivity|].
  destruct (body x s) as [s'|e]; simpl; [apply IH|reflexivity].
Qed.

Lemma bind_Ok_l {A B : Type} (a : A) (k : A -> result B) : bind (Ok a) k = k a.
Proof. reflexivity. Qed.

Lemma bind_Ok_r {A : Type} (m : result A) : bind m Ok = m.
Proof. destruct m; reflexivity. Qed.

Lemma for_in_snoc {S : Type} (xs : list Z) (x : Z) (body : Z -> S -> result S) (s : S) :
  for_in (xs ++ [x]) body s = bind (for_in xs body s) (body x).
Proof.
  rewrite for_in_app. destruct (for_in xs body s) as [s'|e]; simpl;
    [apply bind_Ok_r|reflexivity].
Qed.

(** A loop whose body appends one computed entry per round builds the
    [map] of the entries. *)
Lemma for_in_append_map (xs : list Z) (body : Z -> list Z -> result (list Z))
      (g : Z -> Z) (acc : list Z) :
  (forall j acc', In j xs -> body j acc' = Ok (acc' ++ [g j])) ->
  for_in xs body acc = Ok (acc ++ map g xs).
Proof.
  revert acc. induction xs as [|x xs IH]; intros acc Hbody; simpl.
  - rewrite app_nil_r. reflexivity.
  - rewrite Hbody by (left; reflexivity). simpl.
    rewrite IH by (intros j acc' Hj; apply Hbody; right; exact Hj).
    rewrite <- app_assoc. reflexivity.
Qed.

(** ** [get_next_row_b] *)

Section NextRow.

Variable current_row : list Z.
Local Abbreviation n := (len current_row).
Hypothesis nonempty : 1 <= n.

(** The function in closed form on a row that is not empty. *)
Lemma get_next_row_b_closed :
  get_next_row_b current_row = Ok (next_row_closed current_row).
Proof.
  unfold get_next_row_b, next_row_closed.
  rewrite index_in_range by lia. simpl.
  rewrite for_in_append_map with (g := next_row_entry current_row).
  - simpl. rewrite index_in_range by lia. reflexivity.
  - intros j acc' Hj. apply in_range in Hj.
    rewrite !index_in_range by lia. reflexivity.
Qed.

Lemma len_next_row_front :
  len ([- item current_row 0 * n]
         ++ map (next_row_entry current_row) (range 1 n)) = n.
Proof.
  rewrite len_app, len_map, len_range by lia.
  rewrite len_single. lia.
Qed.

Lemma len_next_row_closed : len (next_row_closed current_row) = n + 1.
Proof.
  unfold next_row_closed. rewrite len_app, len_next_row_front.
  reflexivity.
Qed.

Lemma item_next_row_first :
  item (next_row_closed current_row) 0 = - item current_row 0 * n.
Proof. reflexivity. Qed.

Lemma item_next_row_inner (j : Z) :
  1 <= j <= n - 1 ->
  item (next_row_closed current_row) j = next_row_entry current_row j.
Proof.
  intros Hj. unfold next_row_closed.
  rewrite item_app_l by (rewrite len_next_row_front; lia).
  rewrite item_app_r by (rewrite len_single; lia).
  rewrite len_single, item_map by (rewrite len_range; lia).
  rewrite item_range by lia. f_equal. lia.
Qed.

Lemma item_next_row_last :
  item (next_row_closed current_row) n
  = item current_row (n - 1) * (2 * n - 3 * n - 1).
Proof.
  unfold next_row_closed.
  pose proof (item_last
                ([- item current_row 0 * n]
                   ++ map (next_row_entry current_row) (range 1 n))
                (item current_row (n - 1) * (2 * n - 3 * n - 1))) as H.
  rewrite len_next_row_front in H. exact H.
Qed.

End NextRow.

Lemma get_next_row_b_nil : get_next_row_b [] = Raise IndexError.
Proof. reflexivity. Qed.

Lemma get_next_row_b_nonempty (row : list Z) :
  row <> [] -> get_next_row_b row = Ok (next_row_closed row).
Proof.
  intros Hne. apply get_next_row_b_closed.
  pose proof (len_nonneg row) as H0.
  assert (len row <> 0) by (rewrite len_nil_iff; exact Hne). lia.
Qed.

(** ** The rows by generation *)

Lemma row_at_generation_succ (g : Z) :
  1 <= g -> row_at_generation (g + 1) = bind (row_at_generation g) get_next_row_b.
Proof.
  intros H. unfold row_at_generation.
  replace (Z.to_nat (g + 1 - 1)) with (S (Z.to_nat (g - 1))) by lia.
  reflexivity.
Qed.

(** ** The loop of [get_a_until] *)

Lemma get_a_until_loop_succ (K : Z) (st : list Z * list Z) :
  0 <= K ->
  get_a_until_loop (range 1 (K + 1 + 1)) st
  = bind (get_a_until_loop (range 1 (K + 1)) st) (get_a_until_body (K + 1)).
Proof.
  intros H. unfold get_a_until_loop. rewrite range_snoc by lia.
  apply for_in_snoc.
Qed.

Lemma get_a_until_body_nonempty (n : Z) (b a : list Z) :
  1 <= len b ->
  get_a_until_body n (b, a) = Ok (next_row_closed b, a ++ [(-1) ^ n * sum b]).
Proof.
  intros H. unfold get_a_until_body. rewrite get_next_row_b_closed by exact H.
  reflexivity.
Qed.

(** The loop invariant: after [k] rounds, [b] is the row of generation
    [k + 1], and [a] holds the [k] terms of the generations before it. *)
Lemma get_a_until_loop_state (k : nat) :
  exists b a,
    get_a_until_loop (range 1 (Z.of_nat k + 1)) ([-1], []) = Ok (b, a)
    /\ row_at_generation (Z.of_nat k + 1) = Ok b
    /\ len b = Z.of_nat k + 1
    /\ len a = Z.of_nat k
    /\ forall n, 1 <= n <= Z.of_nat k ->
         exists row, row_at_generation n = Ok row
                     /\ item a (n - 1) = (-1) ^ n * sum row.
Proof.
  induction k as [|k IH].
  - exists [-1], []. repeat split; try reflexivity. intros n Hn. simpl in Hn. lia.
  - destruct IH as (b & a & Hloop & Hrow & Hb & Ha & Hterms).
    exists (next_row_closed b), (a ++ [(-1) ^ (Z.of_nat k + 1) * sum b]).
    replace (Z.of_nat (S k) + 1) with (Z.of_nat k + 1 + 1) by lia.
    repeat split.
    + rewrite get_a_until_loop_succ by lia. rewrite Hloop. simpl.
      apply get_a_until_body_nonempty. lia.
    + rewrite row_at_generation_succ by lia. rewrite Hrow. simpl.
      apply get_next_row_b_closed. lia.
    + rewrite len_next_row_closed by lia. lia.
    + rewrite len_app, Ha. unfold len. simpl. lia.
    + intros n Hn. destruct (Z.eq_dec n (Z.of_nat k + 1)) as [->|Hne].
      * exists b. split; [exact Hrow|].
        replace (Z.of_nat k + 1 - 1) with (len a) by lia. apply item_last.
      * destruct (Hterms n ltac:(lia)) as (row & Hr & Hi).
        exists row. split; [exact Hr|].
        rewrite item_app_l by lia. exact Hi.
Qed.

Lemma get_a_until_loop_state_Z (num : Z) :
  0 <= num ->
  exists b a,
    get_a_until_loop (range 1 (num + 1)) ([-1], []) = Ok (b, a)
    /\ row_at_generation (num + 1) = Ok b
    /\ len b = num + 1
    /\ len a = num
    /\ forall n, 1 <= n <= num ->
         exists row, row_at_generation n = Ok row
                     /\ item a (n - 1) = (-1) ^ n * sum row.
Proof.
  intros H. pose proof (get_a_until_loop_state (Z.to_nat num)) as L.
  rewrite Z2Nat.id in L by exact H. exact L.
Qed.

Lemma get_a_until_negative (num : Z) : num <= 0 -> get_a_until num = Ok [].
Proof.
  intros H. unfold get_a_until. rewrite range_nil by lia. reflexivity.
Qed.

Lemma get_a_until_total (num : Z) :
  exists a, get_a_until num = Ok a /\ len a = Z.max 0 num.
Proof.
  destruct (Z_lt_le_dec num 0) as [Hneg|Hpos].
  - exists []. split; [apply get_a_until_negative; lia|]. unfold len. simpl. lia.
  - destruct (get_a_until_loop_state_Z num Hpos) as (b & a & Hloop & _ & _ & Ha & _).
    exists a. unfold get_a_until. rewrite Hloop. simpl. split; [reflexivity|lia].
Qed.

Lemma get_a_until_succ (num : Z) (a : list Z) :
  0 <= num -> get_a_until num = Ok a ->
  exists x, get_a_until (num + 1) = Ok (a ++ [x]).
Proof.
  intros H Ha.
  destruct (get_a_until_loop_state_Z num H) as (b & a0 & Hloop & _ & Hb & _ & _).
  unfold get_a_until in Ha. rewrite Hloop in Ha. simpl in Ha.
  injection Ha as ->.
  exists ((-1) ^ (num + 1) * sum b). unfold get_a_until.
  rewrite get_a_until_loop_succ by exact H. rewrite Hloop, bind_Ok_l.
  rewrite get_a_until_body_nonempty by lia. reflexivity.
Qed.

(** ** The loop of [get_unproven_a_until] *)

Lemma get_unproven_a_until_body_in_range (n : Z) (a : list Z) :
  3 <= n <= len a ->
  get_unproven_a_until_body n a
  = Ok (a ++ [4 * (n - 1) ^ 2 * (n - 2) * item a (n - 3)
              - 2 * (3 * n - 2) * (n - 1) * item a (n - 2)
              + (4 * n - 1) * item a (n - 1)]).
Proof.
  intros H. unfold get_unproven_a_until_body.
  rewrite !index_in_range by lia. reflexivity.
Qed.

Lemma get_unproven_a_until_loop_state (k : nat) :
  exists a,
    for_in (range 3 (3 + Z.of_nat k)) get_unproven_a_until_body [1; 3; 13] = Ok a
    /\ len a = 3 + Z.of_nat k
    /\ firstn 3 a = [1; 3; 13]
    /\ forall i, 3 <= i < 3 + Z.of_nat k ->
         item a i = 4 * (i - 1) ^ 2 * (i - 2) * item a (i - 3)
                    - 2 * (3 * i - 2) * (i - 1) * item a (i - 2)
                    + (4 * i - 1) * item a (i - 1).
Proof.
  induction k as [|k IH].
  - exists [1; 3; 13]. repeat split. intros i Hi. simpl in Hi. lia.
  - destruct IH as (a & Hloop & Hlen & Hseed & Hrec).
    set (n := 3 + Z.of_nat k) in *.
    replace (3 + Z.of_nat (S k)) with (n + 1) by lia.
    eexists. split; [|split; [|split]].
    + rewrite range_snoc by lia. rewrite for_in_snoc, Hloop, bind_Ok_l.
      apply get_unproven_a_until_body_in_range. lia.
    + rewrite len_app, Hlen. unfold len. simpl. lia.
    + rewrite firstn_app, Hseed.
      replace (3 - List.length a)%nat with 0%nat by (unfold len in Hlen; lia).
      reflexivity.
    + intros i Hi. destruct (Z.eq_dec i n) as [->|Hne].
      * match goal with
        | |- item (a ++ [?x]) n = _ => pose proof (item_last a x) as HL
        end.
        rewrite Hlen in HL. rewrite HL.
        rewrite !item_app_l by lia. reflexivity.
      * rewrite !item_app_l by lia. apply Hrec. lia.
Qed.

Lemma get_unproven_a_until_from_3 (num : Z) :
  3 <= num ->
  get_unproven_a_until num
  = for_in (range 3 num) get_unproven_a_until_body [1; 3; 13].
Proof.
  intros H. unfold get_unproven_a_until.
  destruct (num <=? 0) eqn:E0; [apply Z.leb_le in E0; lia|].
  destruct (num =? 1) eqn:E1; [apply Z.eqb_eq in E1; lia|].
  destruct (num =? 2) eqn:E2; [apply Z.eqb_eq in E2; lia|].
  reflexivity.
Qed.

Lemma get_unproven_a_until_negative (num : Z) :
  num <= 0 -> get_unproven_a_until num = Ok [].
Proof.
  intros H. unfold get_unproven_a_until.
  destruct (num <=? 0) eqn:E0; [reflexivity|apply Z.leb_gt in E0; lia].
Qed.

Lemma get_unproven_a_until_total (num : Z) :
  exists a, get_unproven_a_until num = Ok a /\ len a = Z.max 0 num.
Proof.
  destruct (Z_lt_le_dec num 3) as [Hlt|Hge].
  - destruct (Z_le_gt_dec num 0) as [H0|H0].
    + exists []. split; [apply get_unproven_a_until_negative; exact H0|].
      unfold len. simpl. lia.
    + assert (Hc : num = 1 \/ num = 2) by lia.
      destruct Hc as [->| ->]; eexists; split; reflexivity.
  - destruct (get_unproven_a_until_loop_state (Z.to_nat (num - 3)))
      as (a & Hloop & Hlen & _).
    replace (3 + Z.of_nat (Z.to_nat (num - 3))) with num in * by lia.
    exists a. rewrite get_unproven_a_until_from_3 by exact Hge.
    split; [exact Hloop|lia].
Qed.

(** ** The driver *)

Lemma list_eqb_eq (l r : list Z) : list_eqb l r = true -> l = r.
Proof.
  revert r. induction l as [|x l IH]; intros [|y r]; simpl; intros H;
    try reflexivity; try discriminate.
  apply andb_prop in H. destruct H as [Hx Hl].
  apply Z.eqb_eq in Hx. rewrite Hx, (IH r Hl). reflexivity.
Qed.

Lemma forallb_false_witness {A : Type} (f : A -> bool) (l : list A) :
  forallb f l = false -> exists x, In x l /\ f x = false.
Proof.
  induction l as [|x l IH]; simpl; [discriminate|].
  destruct (f x) eqn:E; simpl.
  - intros H. destruct (IH H) as (y & Hy & Hf). exists y. split; [right|]; assumption.
  - intros _. exists x. split; [left; reflexivity|exact E].
Qed.


Lemma format_entry_printable (i v : Z) :
  printable i = true -> printable v = true ->
  format_entry i v = Ok ("a(" ++ decimal i ++ ")=" ++ decimal v)%string.
Proof.
  intros Hi Hv. unfold format_entry, str. rewrite Hi, Hv. reflexivity.
Qed.

Lemma format_entry_unprintable (i v : Z) :
  printable i && printable v = false -> format_entry i v = Raise ValueError.
Proof.
  unfold format_entry, str.
  destruct (printable i), (printable v); simpl; intros H;
    try discriminate; reflexivity.
Qed.

Lemma main_body_in_range (a a_unproven : list Z) (i : Z) (out : list string) :
  0 <= i < len a -> 0 <= i < len a_unproven ->
  main_body a a_unproven i out = compare_at a a_unproven [i] out.
Proof.
  intros Ha Hu. unfold main_body, IO.bind, IO.lift, IO.print, IO.assert.
  rewrite !index_in_range by lia. cbn [compare_at]. unfold line_printable.
  destruct (printable (i + 1) && printable (item a i)) eqn:P.
  - apply andb_prop in P. destruct P as [P1 P2].
    rewrite (format_entry_printable _ _ P1 P2). unfold entry_line.
    destruct (item a i =? item a_unproven i); reflexivity.
  - rewrite format_entry_unprintable by exact P. reflexivity.
Qed.

(** On positions within both lists the loop of the driver is [compare_at]:
    no subscript of it is out of range. *)
Lemma main_loop_closed (a a_unproven : list Z) (positions : list Z) :
  (forall i, In i positions -> 0 <= i < len a /\ 0 <= i < len a_unproven) ->
  forall out,
    IO.for_in positions (main_body a a_unproven) out
    = compare_at a a_unproven positions out.
Proof.
  induction positions as [|i positions IH]; intros Hin out; [reflexivity|].
  cbn [IO.for_in]. unfold IO.bind.
  destruct (Hin i (or_introl eq_refl)) as [Ha Hu].
  rewrite main_body_in_range by assumption. cbn [compare_at].
  destruct (line_printable a i); [|reflexivity].
  destruct (item a i =? item a_unproven i); [|reflexivity].
  apply IH. intros j Hj. apply Hin. right. exact Hj.
Qed.

Lemma main_check_closed (a a_unproven : list Z) (out : list string) :
  main_check a a_unproven out
  = if len a =? len a_unproven
    then compare_at a a_unproven (range 0 (len a)) out
    else (out, Raise AssertionError).
Proof.
  unfold main_check, IO.bind, IO.assert, IO.lift.
  destruct (len a =? len a_unproven) eqn:E; [|reflexivity].
  apply Z.eqb_eq in E. apply main_loop_closed.
  intros i Hi. apply in_range in Hi. lia.
Qed.

Lemma compare_at_outcomes (a a_unproven : list Z) (positions : list Z)
      (out : list string) :
  snd (compare_at a a_unproven positions out) = Ok tt
  \/ snd (compare_at a a_unproven positions out) = Raise AssertionError
  \/ snd (compare_at a a_unproven positions out) = Raise ValueError.
Proof.
  revert out. induction positions as [|i positions IH]; intros out;
    cbn [compare_at]; [left; reflexivity|].
  destruct (line_printable a i); [|right; right; reflexivity].
  destruct (item a i =? item a_unproven i); [apply IH|right; left; reflexivity].
Qed.



Lemma compare_at_agree (a a_unproven : list Z) (positions : list Z)
      (out : list string) :
  forallb (line_printable a) positions = true ->
  (forall i, In i positions -> item a i = item a_unproven i) ->
  compare_at a a_unproven positions out
  = (out ++ map (entry_line a) positions, Ok tt).
Proof.
  revert out. induction positions as [|i positions IH]; intros out H Hin;
    cbn [compare_at forallb map] in *.
  - rewrite app_nil_r. reflexivity.
  - apply andb_prop in H. destruct H as [P H]. rewrite P.
    rewrite <- (Hin i (or_introl eq_refl)), Z.eqb_refl.
    rewrite IH by (try exact H; intros j Hj; apply Hin; right; exact Hj).
    rewrite <- app_assoc. reflexivity.
Qed.

Lemma compare_at_app (a a_unproven : list Z) (xs ys : list Z) (out : list string) :
  compare_at a a_unproven (xs ++ ys) out
  = match compare_at a a_unproven xs out with
    | (out', Ok _) => compare_at a a_unproven ys out'
    | (out', Raise e) => (out', Raise e)
    end.
Proof.
  revert out. induction xs as [|i xs IH]; intros out; cbn [compare_at app];
    [reflexivity|].
  destruct (line_printable a i); [|reflexivity].
  destruct (item a i =? item a_unproven i); [apply IH|reflexivity].
Qed.



Lemma main_unfold (num : Z) (a a_unproven : list Z) (out : list string) :
  get_a_until num = Ok a -> get_unproven_a_until num = Ok a_unproven ->
  main num out = main_check a a_unproven out.
Proof.
  intros Ha Hu. unfold main, IO.bind at 1 2, IO.lift. rewrite Ha, Hu. reflexivity.
Qed.

Lemma printed_lines_succ (a : list Z) (k : Z) :
  0 <= k -> printed_lines a (k + 1) = printed_lines a k ++ [entry_line a k].
Proof.
  intros H. unfold printed_lines. rewrite range_snoc by lia.
  rewrite map_app. reflexivity.
Qed.

Lemma lines_printable_succ (a : list Z) (k : Z) :
  0 <= k ->
  lines_printable a (k + 1) = lines_printable a k && line_printable a k.
Proof.
  intros H. unfold lines_printable. rewrite range_snoc by lia.
  rewrite forallb_app. cbn [forallb]. rewrite andb_true_r. reflexivity.
Qed.

Lemma length_printed_lines (a : list Z) :
  List.length (printed_lines a (len a)) = List.length a.
Proof.
  unfold printed_lines, range. rewrite !length_map, length_seq.
  unfold len. lia.
Qed.

Lemma main_check_equal (a : list Z) (out : list string) :
  lines_printable a (len a) = true ->
  main_check a a out = (out ++ printed_lines a (len a), Ok tt).
Proof.
  intros P. rewrite main_check_closed, Z.eqb_refl.
  apply compare_at_agree; [exact P|reflexivity].
Qed.

Lemma main_agree (num : Z) (a : list Z) (out : list string) :
  get_a_until num = Ok a -> get_unproven_a_until num = Ok a ->
  lines_printable a (len a) = true ->
  main num out = (out ++ printed_lines a (len a), Ok tt).
Proof.
  intros Ha Hu P. rewrite (main_unfold num a a out Ha Hu).
  apply main_check_equal. exact P.
Qed.

Lemma main_check_length_mismatch (a a_unproven : list Z) (out : list string) :
  len a <> len a_unproven ->
  main_check a a_unproven out = (out, Raise AssertionError).
Proof.
  intros H. apply Z.eqb_neq in H. rewrite main_check_closed, H. reflexivity.
Qed.

(** The comparison up to a position [k] before which the lists agree and
    the lines can be formatted: the lines before [k] are printed, and the
    round for [k] decides. *)
Lemma main_check_upto (a a_unproven : list Z) (k : Z) (out : list string) :
  len a = len a_unproven ->
  0 <= k < len a ->
  (forall i, 0 <= i < k -> item a i = item a_unproven i) ->
  lines_printable a k = true ->
  main_check a a_unproven out
  = match compare_at a a_unproven [k] (out ++ printed_lines a k) with
    | (out', Ok _) =>
        compare_at a a_unproven (range (k + 1) (len a)) out'
    | (out', Raise e) => (out', Raise e)
    end.
Proof.
  intros Hlen Hk Hbefore P. rewrite main_check_closed.
  replace (len a =? len a_unproven) with true
    by (symmetry; apply Z.eqb_eq; exact Hlen).
  rewrite (range_app 0 k (len a)) by lia.
  rewrite (range_cons k (len a)) by lia.
  rewrite compare_at_app.
  rewrite compare_at_agree
    by (try exact P; intros i Hi; apply in_range in Hi; apply Hbefore; lia).
  cbn [compare_at].
  destruct (line_printable a k); [|reflexivity].
  destruct (item a k =? item a_unproven k); reflexivity.
Qed.

Lemma main_check_first_difference (a a_unproven : list Z) (k : Z) (out : list string) :
  len a = len a_unproven ->
  0 <= k < len a ->
  (forall i, 0 <= i < k -> item a i = item a_unproven i) ->
  item a k <> item a_unproven k ->
  lines_printable a (k + 1) = true ->
  main_check a a_unproven out = (out ++ printed_lines a (k + 1), Raise AssertionError).
Proof.
  intros Hlen Hk Hbefore Hat P.
  rewrite lines_printable_succ in P by lia.
  apply andb_prop in P. destruct P as [Pk Pl].
  rewrite (main_check_upto a a_unproven k out) by assumption.
  cbn [compare_at]. rewrite Pl.
  apply Z.eqb_neq in Hat. rewrite Hat.
  rewrite printed_lines_succ by lia. rewrite app_assoc. reflexivity.
Qed.

Lemma main_check_first_unprintable (a a_unproven : list Z) (k : Z) (out : list string) :
  len a = len a_unproven ->
  0 <= k < len a ->
  (forall i, 0 <= i < k -> item a i = item a_unproven i) ->
  lines_printable a k = true ->
  line_printable a k = false ->
  main_check a a_unproven out = (out ++ printed_lines a k, Raise ValueError).
Proof.
  intros Hlen Hk Hbefore P Pk.
  rewrite (main_check_upto a a_unproven k out) by assumption.
  cbn [compare_at]. rewrite Pk. reflexivity.
Qed.

Lemma index_agree_item (a a_unproven : list Z) (i : Z) :
  0 <= i < len a -> 0 <= i < len a_unproven ->
  (index a i = index a_unproven i <-> item a i = item a_unproven i).
Proof.
  intros Ha Hu. rewrite !index_in_range by lia. split.
  - intros E. injection E as E. exact E.
  - intros E. rewrite E. reflexivity.
Qed.

Lemma engines_agree_upto_50 : forallb engines_agree (range 1 51) = true.
Proof. vm_compute. reflexivity. Qed.

Lemma in_bounds_index (l : list Z) (i : Z) :
  in_bounds l i -> exists x, index l i = Ok x.
Proof.
  intros H. exists (item l i). apply index_in_range. exact H.
Qed.

Lemma get_a_until_loop_split (num n : Z) (st : list Z * list Z) :
  1 <= n <= num ->
  get_a_until_loop (range 1 (num + 1)) st
  = bind (bind (get_a_until_loop (range 1 n) st) (get_a_until_body n))
         (get_a_until_loop (range (n + 1) (num + 1))).
Proof.
  intros H. unfold get_a_until_loop.
  rewrite (range_app 1 n (num + 1)) by lia.
  rewrite (range_cons n (num + 1)) by lia.
  rewrite for_in_app.
  destruct (for_in (range 1 n) get_a_until_body st) as [s'|e]; reflexivity.
Qed.

(** ** The model on small inputs *)

Example get_next_row_b_generation_3 : get_next_row_b [-2; -5; -6] = Ok [6; 21; 24; 24].
Proof. reflexivity. Qed.

Example row_at_generation_3 : row_at_generation 3 = Ok [-2; -5; -6].
Proof. reflexivity. Qed.

Example get_a_until_8 :
  get_a_until 8 = Ok [1; 3; 13; 75; 561; 5355; 63405; 894915].
Proof. reflexivity. Qed.

Example get_unproven_a_until_8 :
  get_unproven_a_until 8 = Ok [1; 3; 13; 75; 561; 5355; 63405; 894915].
Proof. reflexivity. Qed.

Example index_from_the_end : index [1; 3; 13] (-1) = Ok 13.
Proof. reflexivity. Qed.

Example index_out_of_range : index [1; 3; 13] 3 = Raise IndexError.
Proof. reflexivity. Qed.

Example main_3 :
  main 3 [] = (["a(1)=1"; "a(2)=3"; "a(3)=13"]%string, Ok tt).
Proof. vm_compute. reflexivity. Qed.

Example longest_printable :
  printable (int_str_bound - 1) = true /\ printable (- (int_str_bound - 1)) = true.
Proof. split; vm_compute; reflexivity. Qed.

Example str_of_shortest_unprintable :
  str int_str_bound = Raise ValueError /\ str (- int_str_bound) = Raise ValueError.
Proof. split; vm_compute; reflexivity. Qed.

Example main_check_stops_at_first_difference :
  main_check [1; 3; 13] [1; 4; 13] []
  = (["a(1)=1"; "a(2)=3"]%string, Raise AssertionError).
Proof. vm_compute. reflexivity. Qed.

(** * The claims *)

(** C1. For every count N from 1 to 50, [get_a_until N] and
    [get_unproven_a_until N] both return, their lists have the same length
    and agree at every position (they are the same list), and the driver
    run on N ends without raising. *)
Theorem engines_agree_1_to_50 (N : Z) :
  1 <= N <= 50 ->
  exists a a_unproven,
    get_a_until N = Ok a
    /\ get_unproven_a_until N = Ok a_unproven
    /\ len a = len a_unproven
    /\ (forall i, 0 <= i < len a -> index a i = index a_unproven i)
    /\ a = a_unproven
    /\ main_outcome N = Ok tt.
Proof.
  intros H. pose proof engines_agree_upto_50 as F.
  rewrite forallb_forall in F.
  specialize (F N ltac:(apply in_range; lia)). unfold engines_agree in F.
  destruct (get_a_until N) as [a|]; [|discriminate].
  destruct (get_unproven_a_until N) as [u|]; [|discriminate].
  destruct (main_outcome N) as [[]|]; [|discriminate].
  apply andb_prop in F. destruct F as [_ F]. apply list_eqb_eq in F. subst u.
  exists a, a. repeat split; reflexivity.
Qed.

Lemma engines_agree_1_to_50_witness :
  exists a a_unproven,
    get_a_until 7 = Ok a
    /\ get_unproven_a_until 7 = Ok a_unproven
    /\ len a = len a_unproven
    /\ (forall i, 0 <= i < len a -> index a i = index a_unproven i)
    /\ a = a_unproven
    /\ main_outcome 7 = Ok tt.
Proof. apply (engines_agree_1_to_50 7). lia. Defined.

(** C2. On a row of n integers, n >= 1, [get_next_row_b] returns a row of
    n + 1 integers whose entry 0 is [- current_row[0] * n], whose entry j,
    for j from 1 to n - 1, is
    [current_row[j] * (2j - n) + current_row[j-1] * (2j - 3n - 1)], and whose
    entry n is [current_row[n-1] * (2n - 3n - 1)].  Consequently the row of
    generation g, which is also the row [b] that the loop of [get_a_until]
    holds when it reaches n = g, has length g. *)
Theorem get_next_row_b_correct :
  (forall (current_row : list Z) (n : Z),
      n = len current_row -> 1 <= n ->
      exists next_row,
        get_next_row_b current_row = Ok next_row
        /\ len next_row = n + 1
        /\ (exists c0, index current_row 0 = Ok c0
                       /\ index next_row 0 = Ok (- c0 * n))
        /\ (forall j, 1 <= j <= n - 1 ->
              exists cj cj1,
                index current_row j = Ok cj
                /\ index current_row (j - 1) = Ok cj1
                /\ index next_row j
                   = Ok (cj * (2 * j - n) + cj1 * (2 * j - 3 * n - 1)))
        /\ (exists cl, index current_row (n - 1) = Ok cl
                       /\ index next_row n = Ok (cl * (2 * n - 3 * n - 1))))
  /\ (forall g : Z,
        1 <= g ->
        exists row a,
          row_at_generation g = Ok row
          /\ get_a_until_loop (range 1 g) ([-1], []) = Ok (row, a)
          /\ len row = g).
Proof.
  split.
  - intros current_row n -> Hn.
    exists (next_row_closed current_row).
    pose proof (len_next_row_closed current_row Hn) as Hl.
    split; [apply get_next_row_b_closed; exact Hn|].
    split; [exact Hl|]. split; [|split].
    + exists (item current_row 0).
      rewrite !index_in_range by lia. split; reflexivity.
    + intros j Hj. exists (item current_row j), (item current_row (j - 1)).
      rewrite !index_in_range by lia.
      rewrite item_next_row_inner by lia. repeat split; reflexivity.
    + exists (item current_row (len current_row - 1)).
      rewrite !index_in_range by lia.
      rewrite item_next_row_last by lia. split; reflexivity.
  - intros g Hg.
    destruct (get_a_until_loop_state_Z (g - 1) ltac:(lia))
      as (b & a & Hloop & Hrow & Hb & _).
    replace (g - 1 + 1) with g in * by lia.
    exists b, a. repeat split; assumption.
Qed.

Lemma get_next_row_b_correct_witness :
  (exists next_row,
      get_next_row_b [-2; -5; -6] = Ok next_row
      /\ len next_row = 4
      /\ index next_row 1 = Ok (-5 * (2 * 1 - 3) + -2 * (2 * 1 - 3 * 3 - 1)))
  /\ (exists row, row_at_generation 4 = Ok row /\ len row = 4).
Proof.
  destruct get_next_row_b_correct as [Hrow Hgen]. split.
  - destruct (Hrow [-2; -5; -6] 3 eq_refl ltac:(lia))
      as (next_row & Hn & Hl & _ & Hin & _).
    exists next_row. split; [exact Hn|]. split; [exact Hl|].
    destruct (Hin 1 ltac:(lia)) as (cj & cj1 & Hcj & Hcj1 & Hj).
    injection Hcj as <-. injection Hcj1 as <-. exact Hj.
  - destruct (Hgen 4 ltac:(lia)) as (row & a & Hr & _ & Hl).
    exists row. split; assumption.
Defined.

(** C3. For every count >= 0, [get_a_until count] returns a list of exactly
    count elements (the empty list for count 0) whose n-th element, for n
    from 1 to count, is (-1)^n times the sum of the row of generation n,
    where the row of generation 1 is [-1] and each further row is
    [get_next_row_b] of the one before. *)
Theorem get_a_until_correct (count : Z) :
  0 <= count ->
  exists a,
    get_a_until count = Ok a
    /\ len a = count
    /\ (count = 0 -> a = [])
    /\ forall n, 1 <= n <= count ->
         exists row, row_at_generation n = Ok row
                     /\ index a (n - 1) = Ok ((-1) ^ n * sum row).
Proof.
  intros H.
  destruct (get_a_until_loop_state_Z count H) as (b & a & Hloop & _ & _ & Ha & Hterms).
  exists a. unfold get_a_until. rewrite Hloop, bind_Ok_l. simpl.
  split; [reflexivity|]. split; [exact Ha|]. split.
  - intros ->. apply len_nil_iff. exact Ha.
  - intros n Hn. destruct (Hterms n Hn) as (row & Hr & Hi).
    exists row. split; [exact Hr|].
    rewrite index_in_range by lia. rewrite Hi. reflexivity.
Qed.

Lemma get_a_until_correct_witness :
  exists a,
    get_a_until 6 = Ok a
    /\ len a = 6
    /\ (6 = 0 -> a = [])
    /\ forall n, 1 <= n <= 6 ->
         exists row, row_at_generation n = Ok row
                     /\ index a (n - 1) = Ok ((-1) ^ n * sum row).
Proof. apply (get_a_until_correct 6). lia. Defined.

(** C4. [get_unproven_a_until] returns the empty list for count <= 0, [1]
    for count 1, [1, 3] for count 2, [1, 3, 13] for count 3, and for
    count >= 4 a list of count elements that starts with 1, 3, 13 and
    satisfies, at every position i from 3 to count - 1,
    a[i] = 4 (i-1)^2 (i-2) a[i-3] - 2 (3i-2) (i-1) a[i-2] + (4i-1) a[i-1]. *)
Theorem get_unproven_a_until_correct (count : Z) :
  (count <= 0 -> get_unproven_a_until count = Ok [])
  /\ (count = 1 -> get_unproven_a_until count = Ok [1])
  /\ (count = 2 -> get_unproven_a_until count = Ok [1; 3])
  /\ (count = 3 -> get_unproven_a_until count = Ok [1; 3; 13])
  /\ (4 <= count ->
      exists a,
        get_unproven_a_until count = Ok a
        /\ len a = count
        /\ firstn 3 a = [1; 3; 13]
        /\ forall i, 3 <= i <= count - 1 ->
             exists a3 a2 a1,
               index a (i - 3) = Ok a3
               /\ index a (i - 2) = Ok a2
               /\ index a (i - 1) = Ok a1
               /\ index a i = Ok (4 * (i - 1) ^ 2 * (i - 2) * a3
                                  - 2 * (3 * i - 2) * (i - 1) * a2
                                  + (4 * i - 1) * a1)).
Proof.
  split; [apply get_unproven_a_until_negative|].
  split; [intros ->; reflexivity|].
  split; [intros ->; reflexivity|].
  split; [intros ->; reflexivity|].
  intros H.
  destruct (get_unproven_a_until_loop_state (Z.to_nat (count - 3)))
    as (a & Hloop & Hlen & Hseed & Hrec).
  replace (3 + Z.of_nat (Z.to_nat (count - 3))) with count in * by lia.
  exists a. rewrite get_unproven_a_until_from_3 by lia.
  split; [exact Hloop|]. split; [exact Hlen|]. split; [exact Hseed|].
  intros i Hi.
  exists (item a (i - 3)), (item a (i - 2)), (item a (i - 1)).
  rewrite !index_in_range by lia.
  rewrite (Hrec i) by lia. repeat split; reflexivity.
Qed.

Lemma get_unproven_a_until_correct_witness :
  get_unproven_a_until (-2) = Ok []
  /\ exists a,
       get_unproven_a_until 6 = Ok a
       /\ len a = 6
       /\ firstn 3 a = [1; 3; 13]
       /\ forall i, 3 <= i <= 6 - 1 ->
            exists a3 a2 a1,
              index a (i - 3) = Ok a3
              /\ index a (i - 2) = Ok a2
              /\ index a (i - 1) = Ok a1
              /\ index a i = Ok (4 * (i - 1) ^ 2 * (i - 2) * a3
                                 - 2 * (3 * i - 2) * (i - 1) * a2
                                 + (4 * i - 1) * a1).
Proof.
  split.
  - apply (get_unproven_a_until_correct (-2)). lia.
  - apply (get_unproven_a_until_correct 6). lia.
Defined.

(** C5, as the code has it.  [get_a_until 5] and [get_unproven_a_until 5]
    both return [1, 3, 13, 75, 561]. *)
Theorem first_five_terms :
  get_a_until 5 = Ok [1; 3; 13; 75; 561]
  /\ get_unproven_a_until 5 = Ok [1; 3; 13; 75; 561].
Proof. split; reflexivity. Qed.

(** C5, as stated, fails: neither engine returns [1, 3, 13, 73, 501]. *)
Lemma first_five_terms_not_73_501 :
  get_a_until 5 <> Ok [1; 3; 13; 73; 501]
  /\ get_unproven_a_until 5 <> Ok [1; 3; 13; 73; 501].
Proof. split; intros H; vm_compute in H; discriminate H. Qed.

(** C6, as the code has it.  [get_next_row_b] of the row [-1] is [1, 2]. *)
Theorem get_next_row_b_of_first_row : get_next_row_b [-1] = Ok [1; 2].
Proof. reflexivity. Qed.

(** C6, as stated, fails: [get_next_row_b] of the row [-1] is not [1, 0]. *)
Lemma get_next_row_b_of_first_row_not_1_0 : get_next_row_b [-1] <> Ok [1; 0].
Proof. intros H. vm_compute in H. discriminate H. Qed.

(** C7. For every N >= 1, [get_a_until N] is a prefix of
    [get_a_until (N + 1)]: the first N elements of the longer list are the
    shorter list, position by position. *)
Theorem get_a_until_prefix (N : Z) :
  1 <= N ->
  exists a a',
    get_a_until N = Ok a
    /\ get_a_until (N + 1) = Ok a'
    /\ firstn (Z.to_nat N) a' = a
    /\ forall i, 0 <= i < N -> index a' i = index a i.
Proof.
  intros H. destruct (get_a_until_total N) as (a & Ha & Hlen).
  destruct (get_a_until_succ N a ltac:(lia) Ha) as (x & Hx).
  exists a, (a ++ [x]). split; [exact Ha|]. split; [exact Hx|].
  assert (HN : Z.to_nat N = List.length a) by (unfold len in Hlen; lia).
  split.
  - rewrite HN, firstn_app, Nat.sub_diag, firstn_all. simpl.
    apply app_nil_r.
  - intros i Hi.
    rewrite (index_in_range (a ++ [x])) by (rewrite len_app; unfold len; simpl; unfold len in Hlen; lia).
    rewrite (index_in_range a) by lia.
    rewrite item_app_l by lia. reflexivity.
Qed.

Lemma get_a_until_prefix_witness :
  exists a a',
    get_a_until 4 = Ok a
    /\ get_a_until (4 + 1) = Ok a'
    /\ firstn (Z.to_nat 4) a' = a
    /\ forall i, 0 <= i < 4 -> index a' i = index a i.
Proof. apply (get_a_until_prefix 4). lia. Defined.




(** C9. For every num < 0, [get_a_until num] and
    [get_unproven_a_until num] both return the empty list and raise
    nothing. *)
Theorem negative_count_gives_empty (num : Z) :
  num < 0 ->
  get_a_until num = Ok [] /\ get_unproven_a_until num = Ok [].
Proof.
  intros H. split.
  - apply get_a_until_negative. lia.
  - apply get_unproven_a_until_negative. lia.
Qed.

Lemma negative_count_gives_empty_witness :
  get_a_until (-3) = Ok [] /\ get_unproven_a_until (-3) = Ok [].
Proof. apply (negative_count_gives_empty (-3)). lia. Defined.

(** C10. On a row that is not empty every subscript [get_next_row_b] uses
    (0, then j and j - 1 for j from 1 to n - 1, then n - 1) is within the
    row, so each of them returns a value and the function returns a row.
    In [get_a_until], the round for n runs on the state the rounds before it
    left, the row [b] of that state is not empty, and its call of
    [get_next_row_b] returns; so [get_a_until] never raises [IndexError]. *)
Theorem get_next_row_b_subscripts_in_bounds :
  (forall current_row : list Z,
      current_row <> [] ->
      let n := len current_row in
      (in_bounds current_row 0 /\ exists x, index current_row 0 = Ok x)
      /\ (forall j, 1 <= j <= n - 1 ->
            In j (range 1 n)
            /\ in_bounds current_row j
            /\ in_bounds current_row (j - 1)
            /\ (exists x, index current_row j = Ok x)
            /\ (exists y, index current_row (j - 1) = Ok y))
      /\ (in_bounds current_row (n - 1)
          /\ exists x, index current_row (n - 1) = Ok x)
      /\ exists next_row, get_next_row_b current_row = Ok next_row)
  /\ (forall num n : Z,
        1 <= n <= num ->
        exists b a b',
          get_a_until_loop (range 1 n) ([-1], []) = Ok (b, a)
          /\ get_a_until_loop (range 1 (num + 1)) ([-1], [])
             = bind (get_a_until_body n (b, a))
                    (get_a_until_loop (range (n + 1) (num + 1)))
          /\ get_a_until_body n (b, a)
             = bind (get_next_row_b b)
                    (fun b' => Ok (b', a ++ [(-1) ^ n * sum b]))
          /\ b <> []
          /\ get_next_row_b b = Ok b')
  /\ (forall num : Z, get_a_until num <> Raise IndexError).
Proof.
  split; [|split].
  - intros current_row Hne n.
    assert (Hn : 1 <= n).
    { pose proof (len_nonneg current_row).
      assert (len current_row <> 0) by (rewrite len_nil_iff; exact Hne).
      unfold n. lia. }
    assert (B0 : in_bounds current_row 0) by (unfold in_bounds; fold n; lia).
    assert (Bl : in_bounds current_row (n - 1)) by (unfold in_bounds; fold n; lia).
    split; [split; [exact B0|apply in_bounds_index; exact B0]|].
    split; [|split; [split; [exact Bl|apply in_bounds_index; exact Bl]|]].
    + intros j Hj.
      assert (Bj : in_bounds current_row j) by (unfold in_bounds; fold n; lia).
      assert (Bj1 : in_bounds current_row (j - 1)) by (unfold in_bounds; fold n; lia).
      split; [apply in_range; lia|]. split; [exact Bj|]. split; [exact Bj1|].
      split; apply in_bounds_index; assumption.
    + exists (next_row_closed current_row). apply get_next_row_b_nonempty. exact Hne.
  - intros num n Hn.
    destruct (get_a_until_loop_state_Z (n - 1) ltac:(lia))
      as (b & a & Hloop & _ & Hb & _).
    replace (n - 1 + 1) with n in * by lia.
    exists b, a, (next_row_closed b).
    split; [exact Hloop|]. split.
    { rewrite (get_a_until_loop_split num n) by exact Hn.
      rewrite Hloop, bind_Ok_l. reflexivity. }
    split; [reflexivity|]. split.
    + intros ->. unfold len in Hb. simpl in Hb. lia.
    + apply get_next_row_b_closed. lia.
  - intros num. destruct (get_a_until_total num) as (a & Ha & _).
    rewrite Ha. discriminate.
Qed.

Lemma get_next_row_b_subscripts_in_bounds_witness :
  (exists next_row, get_next_row_b [6; 21; 24; 24] = Ok next_row)
  /\ (exists b a b',
        get_a_until_loop (range 1 3) ([-1], []) = Ok (b, a)
        /\ b <> []
        /\ get_next_row_b b = Ok b').
Proof.
  destruct get_next_row_b_subscripts_in_bounds as (Hrow & Hloop & _). split.
  - apply (Hrow [6; 21; 24; 24]). discriminate.
  - destruct (Hloop 5 3 ltac:(lia)) as (b & a & b' & H1 & _ & _ & H2 & H3).
    exists b, a, b'. split; [exact H1|]. split; [exact H2|exact H3].
Defined.

(** * Further properties of the code *)

(** ** Helper lemmas *)

Lemma get_unproven_a_until_succ (num : Z) (a : list Z) :
  0 <= num -> get_unproven_a_until num = Ok a ->
  exists x, get_unproven_a_until (num + 1) = Ok (a ++ [x]).
Proof.
  intros H Ha. destruct (Z_lt_le_dec num 3) as [Hlt|Hge].
  - assert (Hc : num = 0 \/ num = 1 \/ num = 2) by lia.
    destruct Hc as [->|[->| ->]]; vm_compute in Ha; injection Ha as <-;
      eexists; vm_compute; reflexivity.
  - destruct (get_unproven_a_until_loop_state (Z.to_nat (num - 3)))
      as (a0 & Hloop & Hlen & _).
    replace (3 + Z.of_nat (Z.to_nat (num - 3))) with num in * by lia.
    rewrite get_unproven_a_until_from_3 in Ha by exact Hge.
    rewrite Hloop in Ha. injection Ha as ->.
    rewrite get_unproven_a_until_from_3 by lia.
    rewrite range_snoc by lia. rewrite for_in_snoc, Hloop, bind_Ok_l.
    rewrite get_unproven_a_until_body_in_range by lia.
    eexists. reflexivity.
Qed.

Lemma firstn_len_app (a t : list Z) : firstn (Z.to_nat (len a)) (a ++ t) = a.
Proof.
  unfold len. rewrite Nat2Z.id, firstn_app, Nat.sub_diag, firstn_all. simpl.
  apply app_nil_r.
Qed.

(** Any function that returns [[]] up to 0 and appends one element per unit
    of its argument returns, for a smaller argument, a prefix of what it
    returns for a larger one. *)
Section Prefix.

Variable engine : Z -> result (list Z).
Hypothesis engine_nonpositive : forall num, num <= 0 -> engine num = Ok [].
Hypothesis engine_succ :
  forall num a, 0 <= num -> engine num = Ok a ->
                exists x, engine (num + 1) = Ok (a ++ [x]).

Lemma engine_extends_nat (M : Z) (a : list Z) (d : nat) :
  0 <= M -> engine M = Ok a ->
  exists t, engine (M + Z.of_nat d) = Ok (a ++ t) /\ len t = Z.of_nat d.
Proof.
  intros HM Ha. induction d as [|d IH].
  - exists []. rewrite Z.add_0_r, app_nil_r. split; [exact Ha|reflexivity].
  - destruct IH as (t & Ht & Hl).
    destruct (engine_succ (M + Z.of_nat d) (a ++ t) ltac:(lia) Ht) as (x & Hx).
    exists (t ++ [x]).
    replace (M + Z.of_nat (S d)) with (M + Z.of_nat d + 1) by lia.
    rewrite app_assoc. split; [exact Hx|].
    rewrite len_app, Hl, len_single. lia.
Qed.

Lemma engine_len (num : Z) :
  exists a, engine num = Ok a /\ len a = Z.max 0 num.
Proof.
  destruct (Z_le_gt_dec num 0) as [H|H].
  - exists []. split; [apply engine_nonpositive; exact H|].
    change (len []) with 0. lia.
  - destruct (engine_extends_nat 0 [] (Z.to_nat num) ltac:(lia)
                (engine_nonpositive 0 ltac:(lia))) as (t & Ht & Hl).
    exists t. replace (0 + Z.of_nat (Z.to_nat num)) with num in Ht by lia.
    split; [exact Ht|lia].
Qed.

Lemma engine_prefix (M N : Z) :
  M <= N ->
  exists a a',
    engine M = Ok a /\ engine N = Ok a'
    /\ firstn (Z.to_nat M) a' = a
    /\ forall i, 0 <= i < M -> index a' i = index a i.
Proof.
  intros H. destruct (engine_len M) as (a & Ha & Hla).
  destruct (Z_le_gt_dec M 0) as [HM|HM].
  - destruct (engine_len N) as (a' & Ha' & _).
    exists a, a'. split; [exact Ha|]. split; [exact Ha'|].
    rewrite (engine_nonpositive M HM) in Ha. injection Ha as <-.
    replace (Z.to_nat M) with 0%nat by lia.
    split; [reflexivity|]. intros i Hi. lia.
  - destruct (engine_extends_nat M a (Z.to_nat (N - M)) ltac:(lia) Ha)
      as (t & Ht & _).
    replace (M + Z.of_nat (Z.to_nat (N - M))) with N in Ht by lia.
    exists a, (a ++ t). split; [exact Ha|]. split; [exact Ht|].
    replace M with (len a) by lia. split; [apply firstn_len_app|].
    intros i Hi.
    rewrite (index_in_range (a ++ t))
      by (rewrite len_app; pose proof (len_nonneg t); lia).
    rewrite (index_in_range a) by lia.
    rewrite item_app_l by lia. reflexivity.
Qed.

End Prefix.

Lemma row_at_generation_ends (k : nat) :
  exists row,
    row_at_generation (Z.of_nat k + 1) = Ok row
    /\ len row = Z.of_nat k + 1
    /\ item row 0 = (-1) ^ (Z.of_nat k + 1) * Z.of_nat (fact k)
    /\ item row (Z.of_nat k) = (-1) ^ (Z.of_nat k + 1) * Z.of_nat (fact (S k)).
Proof.
  induction k as [|k IH].
  - exists [-1]. repeat split.
  - destruct IH as (row & Hrow & Hlen & Hfirst & Hlast).
    exists (next_row_closed row).
    replace (Z.of_nat (S k) + 1) with (Z.of_nat k + 1 + 1) by lia.
    replace (Z.of_nat (S k)) with (len row) by lia.
    split.
    { rewrite row_at_generation_succ by lia. rewrite Hrow, bind_Ok_l.
      apply get_next_row_b_closed. lia. }
    split; [rewrite len_next_row_closed by lia; lia|].
    rewrite item_next_row_first, item_next_row_last by lia.
    replace (len row - 1) with (Z.of_nat k) by lia.
    rewrite Hfirst, Hlast, Hlen.
    rewrite (Z.pow_add_r (-1) (Z.of_nat k + 1) 1) by lia.
    change ((-1) ^ 1) with (-1).
    change (fact (S (S k))) with (S (S k) * fact (S k))%nat.
    change (fact (S k)) with (S k * fact k)%nat.
    rewrite !Nat2Z.inj_mul, !Nat2Z.inj_succ.
    split; ring.
Qed.

Lemma next_row_closed_padded (row : list Z) (j : Z) :
  1 <= len row -> 0 <= j <= len row ->
  item (next_row_closed row) j
  = padded row j * (2 * j - len row)
    + padded row (j - 1) * (2 * j - 3 * len row - 1).
Proof.
  intros Hn Hj. unfold padded.
  destruct (Z.eq_dec j 0) as [->|H0].
  - rewrite item_next_row_first by lia.
    replace ((0 <=? 0) && (0 <? len row)) with true
      by (symmetry; apply andb_true_intro; split; [apply Z.leb_le|apply Z.ltb_lt]; lia).
    replace ((0 <=? 0 - 1) && (0 - 1 <? len row)) with false by reflexivity.
    ring.
  - replace ((0 <=? j - 1) && (j - 1 <? len row)) with true
      by (symmetry; apply andb_true_intro; split; [apply Z.leb_le|apply Z.ltb_lt]; lia).
    destruct (Z.eq_dec j (len row)) as [->|Hl].
    + rewrite item_next_row_last by lia.
      replace (len row <? len row) with false by (symmetry; apply Z.ltb_irrefl).
      rewrite andb_false_r. ring.
    + rewrite item_next_row_inner by lia.
      replace ((0 <=? j) && (j <? len row)) with true
        by (symmetry; apply andb_true_intro; split; [apply Z.leb_le|apply Z.ltb_lt]; lia).
      reflexivity.
Qed.

Lemma item_scale_row (c : Z) (row : list Z) (i : Z) :
  0 <= i < len row -> item (scale_row c row) i = c * item row i.
Proof. intros H. unfold scale_row. apply item_map. exact H. Qed.

Lemma len_scale_row (c : Z) (row : list Z) : len (scale_row c row) = len row.
Proof. apply len_map. Qed.

Lemma next_row_closed_scale (c : Z) (row : list Z) :
  1 <= len row ->
  next_row_closed (scale_row c row) = scale_row c (next_row_closed row).
Proof.
  intros Hn. unfold next_row_closed. rewrite len_scale_row.
  unfold scale_row at 4. rewrite !map_app, map_map. cbn [map].
  rewrite !item_scale_row by lia.
  f_equal; [f_equal|].
  - apply (f_equal (fun x => [x])). ring.
  - apply map_ext_in. intros j Hj. apply in_range in Hj.
    unfold next_row_entry. rewrite len_scale_row.
    rewrite !item_scale_row by lia. ring.
  - apply (f_equal (fun x => [x])). ring.
Qed.

Lemma index_from_end (l : list Z) (i : Z) :
  - len l <= i < 0 -> index l i = index l (i + len l).
Proof.
  intros H. unfold index.
  assert (E1 : (i <? 0) = true) by (apply Z.ltb_lt; lia).
  assert (E2 : (i + len l <? 0) = false) by (apply Z.ltb_ge; lia).
  rewrite E1. cbv beta zeta iota. rewrite E2. cbv beta iota. rewrite E2.
  reflexivity.
Qed.

(** ** The properties *)

(** X1. [get_next_row_b] raises [IndexError] exactly on the empty row, and
    never raises [AssertionError]. *)
Theorem get_next_row_b_raises_iff_empty (current_row : list Z) :
  (get_next_row_b current_row = Raise IndexError <-> current_row = [])
  /\ get_next_row_b current_row <> Raise AssertionError.
Proof.
  destruct current_row as [|x l].
  - rewrite get_next_row_b_nil. split; [split; reflexivity|discriminate].
  - rewrite get_next_row_b_nonempty by discriminate.
    split; [split; discriminate|discriminate].
Qed.

(** X2. For every integer num, negative ones included, both engines return,
    and both lists have max(0, num) elements; so the first assertion of the
    driver, on the lengths, holds for every num. *)
Theorem engines_return_same_length (num : Z) :
  exists a a_unproven,
    get_a_until num = Ok a
    /\ get_unproven_a_until num = Ok a_unproven
    /\ len a = Z.max 0 num
    /\ len a_unproven = Z.max 0 num
    /\ (len a =? len a_unproven) = true.
Proof.
  destruct (get_a_until_total num) as (a & Ha & Hla).
  destruct (get_unproven_a_until_total num) as (u & Hu & Hlu).
  exists a, u. repeat split; try assumption. apply Z.eqb_eq. lia.
Qed.

(** X3. For all M <= N, [get_unproven_a_until M] is a prefix of
    [get_unproven_a_until N]: the lists returned early for 0, 1 and 2 are
    prefixes of the seed [1, 3, 13], and the loop only appends. *)
Theorem get_unproven_a_until_prefix (M N : Z) :
  M <= N ->
  exists a a',
    get_unproven_a_until M = Ok a
    /\ get_unproven_a_until N = Ok a'
    /\ firstn (Z.to_nat M) a' = a
    /\ forall i, 0 <= i < M -> index a' i = index a i.
Proof.
  apply (engine_prefix get_unproven_a_until).
  - exact get_unproven_a_until_negative.
  - exact get_unproven_a_until_succ.
Qed.

Lemma get_unproven_a_until_prefix_witness :
  exists a a',
    get_unproven_a_until 2 = Ok a
    /\ get_unproven_a_until 6 = Ok a'
    /\ firstn (Z.to_nat 2) a' = a
    /\ forall i, 0 <= i < 2 -> index a' i = index a i.
Proof. apply (get_unproven_a_until_prefix 2 6). lia. Defined.

(** X4. For all M <= N, also when they are far apart or not positive,
    [get_a_until M] is a prefix of [get_a_until N]. *)
Theorem get_a_until_prefix_any (M N : Z) :
  M <= N ->
  exists a a',
    get_a_until M = Ok a
    /\ get_a_until N = Ok a'
    /\ firstn (Z.to_nat M) a' = a
    /\ forall i, 0 <= i < M -> index a' i = index a i.
Proof.
  apply (engine_prefix get_a_until).
  - exact get_a_until_negative.
  - exact get_a_until_succ.
Qed.

Lemma get_a_until_prefix_any_witness :
  exists a a',
    get_a_until 3 = Ok a
    /\ get_a_until 9 = Ok a'
    /\ firstn (Z.to_nat 3) a' = a
    /\ forall i, 0 <= i < 3 -> index a' i = index a i.
Proof. apply (get_a_until_prefix_any 3 9). lia. Defined.

(** X5. When the two lists are the same list and every line can be
    formatted (no number to print has more than 4300 digits), the comparison
    of the driver prints one line per element, in order, after what was
    printed before, the line for position i being [a(i+1)=] followed by the
    element, and ends without an exception. *)
Theorem driver_prints_every_term (a : list Z) (out : list string) :
  lines_printable a (len a) = true ->
  main_check a a out = (out ++ printed_lines a (len a), Ok tt)
  /\ List.length (printed_lines a (len a)) = List.length a.
Proof.
  intros P. split; [apply main_check_equal; exact P|apply length_printed_lines].
Qed.

Lemma driver_prints_every_term_witness :
  main_check [1; 3; 13] [1; 3; 13] []
  = ([] ++ printed_lines [1; 3; 13] (len [1; 3; 13]), Ok tt)
  /\ List.length (printed_lines [1; 3; 13] (len [1; 3; 13]))
     = List.length [1; 3; 13].
Proof. apply (driver_prints_every_term [1; 3; 13] []). vm_compute. reflexivity. Defined.

(** X6. When the lists differ in length the driver prints nothing and raises
    [AssertionError].  When they have the same length, first differ at
    position k, and the lines for the positions 0 to k can be formatted, it
    prints those lines, the one of the differing position included, and
    then raises [AssertionError]. *)
Theorem driver_output_on_failure (a a_unproven : list Z) (k : Z) (out : list string) :
  (len a <> len a_unproven ->
   main_check a a_unproven out = (out, Raise AssertionError))
  /\ (len a = len a_unproven ->
      0 <= k < len a ->
      (forall i, 0 <= i < k -> index a i = index a_unproven i) ->
      index a k <> index a_unproven k ->
      lines_printable a (k + 1) = true ->
      main_check a a_unproven out
      = (out ++ printed_lines a (k + 1), Raise AssertionError)).
Proof.
  split; [apply main_check_length_mismatch|].
  intros Hlen Hk Hbefore Hat P.
  apply main_check_first_difference; try assumption.
  - intros i Hi. apply index_agree_item; [lia|lia|]. apply Hbefore. exact Hi.
  - intros E. apply Hat. apply index_agree_item; [lia|lia|exact E].
Qed.

Lemma driver_output_on_failure_witness :
  main_check [1; 3] [1] [] = ([], Raise AssertionError)
  /\ main_check [1; 3; 13] [1; 4; 13] []
     = (["a(1)=1"; "a(2)=3"]%string, Raise AssertionError).
Proof.
  split.
  - apply (driver_output_on_failure [1; 3] [1] 0 []). vm_compute. discriminate.
  - apply (driver_output_on_failure [1; 3; 13] [1; 4; 13] 1 []).
    + reflexivity.
    + vm_compute. split; [discriminate|reflexivity].
    + intros i Hi. assert (E : i = 0) by lia. rewrite E. reflexivity.
    + vm_compute. discriminate.
    + vm_compute. reflexivity.
Defined.

(** X7. The driver never raises [IndexError]: whatever the two lists are,
    its comparison ends normally, with [AssertionError] or with the
    [ValueError] of a number too long to print, and so does a run of the
    driver on any num. *)
Theorem driver_never_raises_IndexError :
  (forall (a a_unproven : list Z) (out : list string),
      snd (main_check a a_unproven out) = Ok tt
      \/ snd (main_check a a_unproven out) = Raise AssertionError
      \/ snd (main_check a a_unproven out) = Raise ValueError)
  /\ (forall (num : Z) (out : list string),
        snd (main num out) = Ok tt
        \/ snd (main num out) = Raise AssertionError
        \/ snd (main num out) = Raise ValueError).
Proof.
  assert (H : forall a u out,
             snd (main_check a u out) = Ok tt
             \/ snd (main_check a u out) = Raise AssertionError
             \/ snd (main_check a u out) = Raise ValueError).
  { intros a u out. rewrite main_check_closed.
    destruct (len a =? len u); [apply compare_at_outcomes|].
    right. left. reflexivity. }
  split; [exact H|]. intros num out.
  destruct (get_a_until_total num) as (a & Ha & _).
  destruct (get_unproven_a_until_total num) as (u & Hu & _).
  rewrite (main_unfold num a u out Ha Hu). apply H.
Qed.

(** X8. For num <= 0 the driver prints nothing and ends without an
    exception. *)
Theorem main_nonpositive (num : Z) (out : list string) :
  num <= 0 -> main num out = (out, Ok tt).
Proof.
  intros H.
  rewrite (main_agree num [] out (get_a_until_negative num H)
             (get_unproven_a_until_negative num H) eq_refl).
  change (printed_lines [] (len [])) with (@nil string).
  rewrite app_nil_r. reflexivity.
Qed.

Lemma main_nonpositive_witness : main (-4) [] = ([], Ok tt).
Proof. apply (main_nonpositive (-4) []). lia. Defined.

(** X9. Whenever the two engines return the same list for num and every
    line can be formatted (no number to print has more than 4300 digits),
    the driver prints exactly max(0, num) lines, the i-th being [a(i)=]
    followed by the i-th term of [get_a_until num], and ends without an
    exception. *)
Theorem main_prints_terms_when_engines_agree (num : Z) (a : list Z) (out : list string) :
  get_a_until num = Ok a ->
  get_unproven_a_until num = Ok a ->
  lines_printable a (len a) = true ->
  len a = Z.max 0 num
  /\ List.length (printed_lines a (len a)) = List.length a
  /\ main num out = (out ++ printed_lines a (len a), Ok tt).
Proof.
  intros Ha Hu P. destruct (get_a_until_total num) as (a0 & Ha0 & Hl).
  rewrite Ha in Ha0. injection Ha0 as <-.
  split; [exact Hl|]. split; [apply length_printed_lines|].
  apply main_agree; assumption.
Qed.

Lemma main_prints_terms_when_engines_agree_witness :
  len [1; 3; 13; 75] = Z.max 0 4
  /\ List.length (printed_lines [1; 3; 13; 75] (len [1; 3; 13; 75]))
     = List.length [1; 3; 13; 75]
  /\ main 4 [] = ([] ++ printed_lines [1; 3; 13; 75] (len [1; 3; 13; 75]), Ok tt).
Proof.
  apply (main_prints_terms_when_engines_agree 4 [1; 3; 13; 75] []).
  - reflexivity.
  - reflexivity.
  - vm_compute. reflexivity.
Defined.

(** X14. When two lists of the same length agree before position k, the
    lines before k can be formatted and the line for k cannot (its number
    has more than 4300 digits), the driver prints the lines before k and
    raises [ValueError] at the print of line k: the assertion on position k
    is not reached, whether the lists agree there or not. *)
Theorem driver_value_error_on_long_number
        (a a_unproven : list Z) (k : Z) (out : list string) :
  len a = len a_unproven ->
  0 <= k < len a ->
  (forall i, 0 <= i < k -> index a i = index a_unproven i) ->
  lines_printable a k = true ->
  line_printable a k = false ->
  main_check a a_unproven out = (out ++ printed_lines a k, Raise ValueError).
Proof.
  intros Hlen Hk Hbefore P Pk.
  apply main_check_first_unprintable; try assumption.
  intros i Hi. apply index_agree_item; [lia|lia|]. apply Hbefore. exact Hi.
Qed.

Lemma driver_value_error_on_long_number_witness :
  main_check [1; int_str_bound] [1; int_str_bound] []
  = (["a(1)=1"]%string, Raise ValueError).
Proof.
  apply (driver_value_error_on_long_number
           [1; int_str_bound] [1; int_str_bound] 1 []).
  - reflexivity.
  - vm_compute. split; [discriminate|reflexivity].
  - intros i Hi. assert (E : i = 0) by lia. rewrite E. reflexivity.
  - vm_compute. reflexivity.
  - vm_compute. reflexivity.
Defined.

(** X10. The row [b] that the loop of [get_a_until] holds when it reaches
    n = g (the row of generation g) starts with (-1)^g (g-1)! and ends with
    (-1)^g g!. *)
Theorem row_ends_are_factorials (g : Z) :
  1 <= g ->
  exists row a,
    get_a_until_loop (range 1 g) ([-1], []) = Ok (row, a)
    /\ row_at_generation g = Ok row
    /\ index row 0 = Ok ((-1) ^ g * Z.of_nat (fact (Z.to_nat (g - 1))))
    /\ index row (g - 1) = Ok ((-1) ^ g * Z.of_nat (fact (Z.to_nat g)))
    /\ index row (-1) = Ok ((-1) ^ g * Z.of_nat (fact (Z.to_nat g))).
Proof.
  intros Hg.
  destruct (get_a_until_loop_state_Z (g - 1) ltac:(lia))
    as (b & a & Hloop & Hrow & Hb & _).
  destruct (row_at_generation_ends (Z.to_nat (g - 1)))
    as (row & Hrow' & Hlen & Hfirst & Hlast).
  replace (Z.of_nat (Z.to_nat (g - 1)) + 1) with g in * by lia.
  replace (g - 1 + 1) with g in * by lia.
  replace (Z.of_nat (Z.to_nat (g - 1))) with (g - 1) in * by lia.
  replace (S (Z.to_nat (g - 1))) with (Z.to_nat g) in * by lia.
  rewrite Hrow' in Hrow. injection Hrow as <-.
  exists row, a. split; [exact Hloop|]. split; [exact Hrow'|].
  assert (Hm : index row (-1) = index row (g - 1)).
  { rewrite index_from_end by lia. f_equal. lia. }
  rewrite Hm, !index_in_range by lia. rewrite Hfirst, Hlast.
  repeat split; reflexivity.
Qed.

Lemma row_ends_are_factorials_witness :
  exists row a,
    get_a_until_loop (range 1 4) ([-1], []) = Ok (row, a)
    /\ row_at_generation 4 = Ok row
    /\ index row 0 = Ok ((-1) ^ 4 * Z.of_nat (fact (Z.to_nat (4 - 1))))
    /\ index row (4 - 1) = Ok ((-1) ^ 4 * Z.of_nat (fact (Z.to_nat 4)))
    /\ index row (-1) = Ok ((-1) ^ 4 * Z.of_nat (fact (Z.to_nat 4))).
Proof. apply (row_ends_are_factorials 4). lia. Defined.

(** X11. The first and the last entry that [get_next_row_b] computes apart
    are instances of the formula of its loop: with the row read as 0 outside
    its positions, entry j of the new row is
    [row[j] * (2j - n) + row[j-1] * (2j - 3n - 1)] for every j from 0 to n. *)
Theorem get_next_row_b_one_formula (current_row : list Z) (j : Z) :
  1 <= len current_row ->
  0 <= j <= len current_row ->
  exists next_row,
    get_next_row_b current_row = Ok next_row
    /\ index next_row j
       = Ok (padded current_row j * (2 * j - len current_row)
             + padded current_row (j - 1) * (2 * j - 3 * len current_row - 1)).
Proof.
  intros Hn Hj. exists (next_row_closed current_row).
  split; [apply get_next_row_b_closed; exact Hn|].
  rewrite index_in_range by (rewrite len_next_row_closed by exact Hn; lia).
  rewrite next_row_closed_padded by assumption. reflexivity.
Qed.

Lemma get_next_row_b_one_formula_witness :
  exists next_row,
    get_next_row_b [-2; -5; -6] = Ok next_row
    /\ index next_row 3
       = Ok (padded [-2; -5; -6] 3 * (2 * 3 - len [-2; -5; -6])
             + padded [-2; -5; -6] (3 - 1) * (2 * 3 - 3 * len [-2; -5; -6] - 1)).
Proof.
  apply (get_next_row_b_one_formula [-2; -5; -6] 3).
  - vm_compute. discriminate.
  - vm_compute. split; discriminate.
Defined.

(** X12. In [get_unproven_a_until num], the round for n (3 <= n < num) runs
    on a list of exactly n elements, so its subscripts n - 3, n - 2 and
    n - 1 are the last three positions of the list and within it; the
    function therefore raises nothing, for any num. *)
Theorem get_unproven_a_until_subscripts_in_bounds (num n : Z) :
  3 <= n < num ->
  (exists a,
      for_in (range 3 n) get_unproven_a_until_body [1; 3; 13] = Ok a
      /\ get_unproven_a_until num
         = bind (get_unproven_a_until_body n a)
                (for_in (range (n + 1) num) get_unproven_a_until_body)
      /\ len a = n
      /\ in_bounds a (n - 3) /\ in_bounds a (n - 2) /\ in_bounds a (n - 1))
  /\ (forall e, get_unproven_a_until num <> Raise e).
Proof.
  intros H. split.
  - destruct (get_unproven_a_until_loop_state (Z.to_nat (n - 3)))
      as (a & Hloop & Hlen & _).
    replace (3 + Z.of_nat (Z.to_nat (n - 3))) with n in * by lia.
    exists a. split; [exact Hloop|]. split.
    { rewrite get_unproven_a_until_from_3 by lia.
      rewrite (range_app 3 n num) by lia.
      rewrite (range_cons n num) by lia.
      rewrite for_in_app, Hloop, bind_Ok_l. reflexivity. }
    split; [exact Hlen|]. unfold in_bounds. lia.
  - intros e. destruct (get_unproven_a_until_total num) as (a & Ha & _).
    rewrite Ha. discriminate.
Qed.

Lemma get_unproven_a_until_subscripts_in_bounds_witness :
  (exists a,
      for_in (range 3 5) get_unproven_a_until_body [1; 3; 13] = Ok a
      /\ get_unproven_a_until 8
         = bind (get_unproven_a_until_body 5 a)
                (for_in (range (5 + 1) 8) get_unproven_a_until_body)
      /\ len a = 5
      /\ in_bounds a (5 - 3) /\ in_bounds a (5 - 2) /\ in_bounds a (5 - 1))
  /\ (forall e, get_unproven_a_until 8 <> Raise e).
Proof. apply (get_unproven_a_until_subscripts_in_bounds 8 5). lia. Defined.

(** X13. [get_next_row_b] is homogeneous: on a row with every entry
    multiplied by c it returns the row it returns otherwise with every entry
    multiplied by c, and it raises on the one exactly when on the other. *)
Theorem get_next_row_b_scale (c : Z) (current_row : list Z) :
  get_next_row_b (scale_row c current_row)
  = (next_row <- get_next_row_b current_row ;; Ok (scale_row c next_row)).
Proof.
  destruct current_row as [|x l]; [reflexivity|].
  assert (Hn : 1 <= len (x :: l)).
  { unfold len. simpl List.length. lia. }
  rewrite (get_next_row_b_closed (x :: l)) by exact Hn.
  rewrite get_next_row_b_closed by (rewrite len_scale_row; exact Hn).
  rewrite bind_Ok_l, next_row_closed_scale by exact Hn. reflexivity.
Qed.
